(** * Brief Matcher Tool: the matching core of [src/app.py]

    Shallow embedding of [find_matches], [display_matches] and the
    "Find Matches" branch of [main].  Python values reaching these
    functions (decoded JSON, spreadsheet rows) are modelled by [pyval];
    Streamlit calls are recorded as a list of [event]s; an exception that
    escapes a function is an [exn].  Numbers are the integers of Python;
    floats are not part of this model. *)

From Stdlib Require Import ZArith List String Ascii Bool.
From Stdlib Require Import Numbers.DecimalString Lia.
Import ListNotations.
Open Scope string_scope.
Set Warnings "-register-all".

(** ** Python values *)

Inductive pyval : Type :=
| PNone
| PBool (b : bool)
| PInt (z : Z)
| PStr (s : string)
| PList (xs : list pyval)
| PDict (kvs : list (string * pyval)).

(** A spreadsheet row, as produced by [df.to_dict('records')]. *)
Definition record := list (string * pyval).

(** [dict.get(key, default)]: Python dicts have unique keys, the first
    binding is the one. *)
Fixpoint dict_get (d : list (string * pyval)) (key : string) (default : pyval)
  : pyval :=
  match d with
  | [] => default
  | (k, v) :: d' => if String.eqb k key then v else dict_get d' key default
  end.

(** Python truthiness, [bool(x)]. *)
Definition truthy (v : pyval) : bool :=
  match v with
  | PNone => false
  | PBool b => b
  | PInt z => negb (Z.eqb z 0)
  | PStr s => negb (String.eqb s "")
  | PList xs => match xs with [] => false | _ => true end
  | PDict kvs => match kvs with [] => false | _ => true end
  end.

(** [str(z)] for an int. *)
Definition z_str (z : Z) : string := NilEmpty.string_of_int (Z.to_int z).

Definition squote : ascii := "039"%char.
Definition dquote : ascii := "034"%char.
Definition bslash : ascii := "092"%char.

Fixpoint has_char (c : ascii) (s : string) : bool :=
  match s with
  | EmptyString => false
  | String c' s' => if Ascii.eqb c c' then true else has_char c s'
  end.

(** ** Text as Python sees it

    A Python [str] is a sequence of code points; here a text is its UTF-8
    encoding.  [utf8_chunks] cuts the bytes into the encodings of single
    code points; a byte that starts no valid encoding is a chunk of its
    own with no code point (a Python [str] never yields one). *)

Record chunk : Type := mk_chunk {
  cp : option Z;
  lead : ascii;
  cont_bytes : list ascii
}.

Definition chunk_bytes (ch : chunk) : list ascii := lead ch :: cont_bytes ch.

Definition byte (a : ascii) : Z := Z.of_nat (nat_of_ascii a).

Definition is_cont (a : ascii) : bool := (128 <=? byte a)%Z && (byte a <? 192)%Z.

Definition dec2 (b1 b2 : ascii) : option Z :=
  if (192 <=? byte b1)%Z && (byte b1 <? 224)%Z && is_cont b2 then
    let c := ((byte b1 - 192) * 64 + (byte b2 - 128))%Z in
    if (128 <=? c)%Z then Some c else None
  else None.

Definition dec3 (b1 b2 b3 : ascii) : option Z :=
  if (224 <=? byte b1)%Z && (byte b1 <? 240)%Z && is_cont b2 && is_cont b3 then
    let c := ((byte b1 - 224) * 4096 + (byte b2 - 128) * 64 + (byte b3 - 128))%Z in
    if (2048 <=? c)%Z && negb ((55296 <=? c)%Z && (c <=? 57343)%Z) then Some c else None
  else None.

Definition dec4 (b1 b2 b3 b4 : ascii) : option Z :=
  if (240 <=? byte b1)%Z && (byte b1 <? 248)%Z && is_cont b2 && is_cont b3
     && is_cont b4 then
    let c := ((byte b1 - 240) * 262144 + (byte b2 - 128) * 4096
              + (byte b3 - 128) * 64 + (byte b4 - 128))%Z in
    if (65536 <=? c)%Z && (c <=? 1114111)%Z then Some c else None
  else None.

Fixpoint utf8_chunks (cs : list ascii) : list chunk :=
  match cs with
  | [] => []
  | b1 :: r1 =>
      if (byte b1 <? 128)%Z then mk_chunk (Some (byte b1)) b1 [] :: utf8_chunks r1
      else
        match r1 with
        | [] => [mk_chunk None b1 []]
        | b2 :: r2 =>
            match dec2 b1 b2 with
            | Some c => mk_chunk (Some c) b1 [b2] :: utf8_chunks r2
            | None =>
                match r2 with
                | [] => mk_chunk None b1 [] :: utf8_chunks r1
                | b3 :: r3 =>
                    match dec3 b1 b2 b3 with
                    | Some c => mk_chunk (Some c) b1 [b2; b3] :: utf8_chunks r3
                    | None =>
                        match r3 with
                        | [] => mk_chunk None b1 [] :: utf8_chunks r1
                        | b4 :: r4 =>
                            match dec4 b1 b2 b3 b4 with
                            | Some c => mk_chunk (Some c) b1 [b2; b3; b4] :: utf8_chunks r4
                            | None => mk_chunk None b1 [] :: utf8_chunks r1
                            end
                        end
                    end
                end
            end
        end
  end.

Definition text_chunks (s : string) : list chunk := utf8_chunks (list_ascii_of_string s).

Definition hex_digit (n : Z) : ascii :=
  if (n <? 10)%Z then ascii_of_nat (Z.to_nat (48 + n)) else ascii_of_nat (Z.to_nat (87 + n)).

(** [\xhh] with two lowercase hexadecimal digits. *)
Definition hex_escape (c : Z) : list ascii :=
  [bslash; "x"%char; hex_digit (c / 16)%Z; hex_digit (c mod 16)%Z].

(** One code point inside [repr(s)] between the quotes [q]: backslash and
    the quote are escaped, tab, newline and carriage return as [\t],
    [\n], [\r], the other non-printable code points of the ASCII and
    Latin-1 ranges (controls, DEL, U+0080 to U+00A0, U+00AD) as [\xhh].
    Code points above U+00FF are kept as they are; Python would write the
    non-printable ones among them (U+2028, U+200B, ...) as [\uXXXX], a
    case this model leaves out: the statements about matching IDs below
    assume scalar IDs (see [scalar]), on which [str] never uses [repr]. *)
Definition repr_chunk (q : ascii) (ch : chunk) : list ascii :=
  match cp ch with
  | None => chunk_bytes ch
  | Some c =>
      if (c =? 92)%Z then [bslash; bslash]
      else if (c =? byte q)%Z then [bslash; q]
      else if (c =? 9)%Z then [bslash; "t"%char]
      else if (c =? 10)%Z then [bslash; "n"%char]
      else if (c =? 13)%Z then [bslash; "r"%char]
      else if (c <? 32)%Z || (c =? 127)%Z || ((128 <=? c)%Z && (c <=? 160)%Z)
              || (c =? 173)%Z then hex_escape c
      else chunk_bytes ch
  end.

(** [repr(s)] for a str: single quotes unless the text has a single quote
    and no double quote. *)
Definition str_repr (s : string) : string :=
  let q := if has_char squote s && negb (has_char dquote s) then dquote
           else squote in
  String q (string_of_list_ascii (List.concat (map (repr_chunk q) (text_chunks s)))
            ++ String q EmptyString).

Fixpoint join (sep : string) (xs : list string) : string :=
  match xs with
  | [] => ""
  | [x] => x
  | x :: xs' => x ++ sep ++ join sep xs'
  end.

(** [repr(v)]. *)
Fixpoint py_repr (v : pyval) : string :=
  match v with
  | PNone => "None"
  | PBool true => "True"
  | PBool false => "False"
  | PInt z => z_str z
  | PStr s => str_repr s
  | PList xs => "[" ++ join ", " (map py_repr xs) ++ "]"
  | PDict kvs =>
      "{" ++ join ", " (map (fun kv => str_repr (fst kv) ++ ": " ++ py_repr (snd kv)) kvs)
      ++ "}"
  end.

(** [str(v)]: the text itself for a str, [repr] otherwise. *)
Definition py_str (v : pyval) : string :=
  match v with
  | PStr s => s
  | _ => py_repr v
  end.



(** ** [str.strip()] *)

(** [str.isspace] on a code point: the whitespace of Python 3. *)
Definition py_isspace (c : Z) : bool :=
  ((9 <=? c)%Z && (c <=? 13)%Z) || ((28 <=? c)%Z && (c <=? 32)%Z)
  || (c =? 133)%Z || (c =? 160)%Z || (c =? 5760)%Z
  || ((8192 <=? c)%Z && (c <=? 8202)%Z) || (c =? 8232)%Z || (c =? 8233)%Z
  || (c =? 8239)%Z || (c =? 8287)%Z || (c =? 12288)%Z.

Definition chunk_space (ch : chunk) : bool :=
  match cp ch with Some c => py_isspace c | None => false end.

Fixpoint lstrip_chunks (chs : list chunk) : list chunk :=
  match chs with
  | [] => []
  | ch :: chs' => if chunk_space ch then lstrip_chunks chs' else chs
  end.

(** [s.strip()]: leading and trailing whitespace code points removed. *)
Definition py_strip (s : string) : string :=
  string_of_list_ascii
    (List.concat (map chunk_bytes (rev (lstrip_chunks (rev (lstrip_chunks (text_chunks s))))))).

(** ** Streamlit effects and exceptions *)

Inductive exn : Type :=
| KeyError
| TypeError
| AttributeError
| IndexError.

Inductive event : Type :=
| EvSubheader (s : string)
| EvWarning (s : string)
| EvError (s : string)
| EvInfo (s : string)
| EvExpander (title : string)
| EvMarkdown (s : string)
(** the six [Label: value] lines of the detail block, values as [str] *)
| EvDetails (values : list string).

(** ** [display_matches] *)

(** [matches[0]]: JSON object keys are strings, so an int key is never
    found in a dict. *)
Definition subscript0 (v : pyval) : pyval + exn :=
  match v with
  | PList (x :: _) => inl x
  | PList [] => inr IndexError
  | PDict _ => inr KeyError
  | PStr (String c _) => inl (PStr (String c EmptyString))
  | PStr EmptyString => inr IndexError
  | PNone | PBool _ | PInt _ => inr TypeError
  end.

(** [next((b for b in brief_library if str(b.get('ID')) == str(match_id)), None)] *)
Definition find_brief (brief_library : list record) (match_id : pyval)
  : option record :=
  find (fun b => String.eqb (py_str (dict_get b "ID" PNone)) (py_str match_id))
    brief_library.

Definition show_brief (original_brief : record) (reason : pyval) : list event :=
  let g k := py_str (dict_get original_brief k (PStr "N/A")) in
  [ EvExpander ("**" ++ py_str (dict_get original_brief "Generic_Campaign_Concept"
                                   (PStr "No Title")) ++ "**");
    EvMarkdown "**Budget-Aware Recommendation:**";
    EvInfo (py_str reason);
    EvMarkdown "---";
    EvDetails [ g "Generic_Brand_Category"; g "Generic_Audience_Profile";
                g "Generic_Key_Objective"; g "Core_Creative_Tactic";
                g "Supporting_Media_Tactics"; g "Budget_Description" ] ].

Definition msg_missing_id := "A match was found but it was missing an ID.".
Definition msg_no_match :=
  "No close matches found that fit the budget requirements. This is a great opportunity for a brand new idea!".
Definition msg_not_found (match_id : pyval) :=
  "Matched brief ID '" ++ py_str match_id ++ "' not found in the library.".

(** [st.subheader], the first call of [display_matches]. *)
Definition display_header : event := EvSubheader "Top Creative Idea".

(** [display_matches(matches, brief_library)]: the events it emits and,
    when one escapes, the exception. *)
Definition display_matches (matches : pyval) (brief_library : list record)
  : list event * option exn :=
  let ev0 := [display_header] in
  if truthy matches then
    match subscript0 matches with
    | inr e => (ev0, Some e)
    | inl (PDict m) =>
        let match_id := dict_get m "ID" PNone in
        let reason := dict_get m "scaled_reason" (PStr "No reason provided.") in
        if negb (truthy match_id) then ((ev0 ++ [EvWarning msg_missing_id])%list, None)
        else
          match find_brief brief_library match_id with
          | Some original_brief =>
              if truthy (PDict original_brief)
              then ((ev0 ++ show_brief original_brief reason)%list, None)
              else ((ev0 ++ [EvError (msg_not_found match_id)])%list, None)
          | None => ((ev0 ++ [EvError (msg_not_found match_id)])%list, None)
          end
    | inl _ => (ev0, Some AttributeError)
    end
  else ((ev0 ++ [EvInfo msg_no_match])%list, None).

(** ** [find_matches] *)

(** The prompt is the constant f-string template of [find_matches]; it is
    determined by its four interpolated values, which this record keeps
    (the template text itself is not repeated here). *)
Record prompt : Type := mk_prompt {
  p_new_brief : string;
  p_params : string;
  p_user_budget : Z;
  p_library : list (list (string * pyval))
}.

(** One entry of [simplified_briefs]. *)
Definition simplify_brief (b : record) : list (string * pyval) :=
  [ ("ID", dict_get b "ID" (PStr ""));
    ("Generic_Campaign_Concept", dict_get b "Generic_Campaign_Concept" (PStr ""));
    ("Generic_Brand_Category", dict_get b "Generic_Brand_Category" (PStr ""));
    ("Generic_Key_Objective", dict_get b "Generic_Key_Objective" (PStr ""));
    ("Generic_Audience_Profile", dict_get b "Generic_Audience_Profile" (PStr ""));
    ("Core_Creative_Tactic", dict_get b "Core_Creative_Tactic" (PStr ""));
    ("Supporting_Media_Tactics", dict_get b "Supporting_Media_Tactics" (PStr ""));
    ("Budget_Description", dict_get b "Budget_Description" (PStr ""));
    ("Minimum_Viable_Budget", dict_get b "Minimum_Viable_Budget" (PInt 0)) ].

Definition simplified_briefs (brief_library : list record)
  : list (list (string * pyval)) :=
  map simplify_brief brief_library.

(** What [model.generate_content(prompt)] followed by [response.text]
    produces: the text, or an exception (with its [str]). *)
Inductive api_result : Type :=
| ApiRaised (msg : string)
| ApiText (text : string).

Definition msg_api_error (e : string) := "An error occurred with the API: " ++ e.
Definition msg_api_warning :=
  "Could not connect to the API. Please check your API key and try again.".

(** Outcome of a call of [find_matches]: the returned value, the
    Streamlit calls made, and the prompts sent to the model. *)
Record fm_outcome : Type := mk_fm {
  fm_result : pyval;
  fm_events : list event;
  fm_sent : list prompt
}.

Section Matching.

(** [json.loads]: the decoded value, or the [str] of the
    [JSONDecodeError] it raises. *)
Variable loads : string -> string + pyval.

(** The hosted model, as seen by [find_matches]: what a call with a given
    prompt returns.  Two runs may face different [generate]s. *)
Variable generate : prompt -> api_result.

Definition find_matches (new_brief params : string) (user_budget : Z)
    (brief_library : list record) : fm_outcome :=
  let p := mk_prompt new_brief params user_budget (simplified_briefs brief_library) in
  let fail e := mk_fm (PList []) [EvError (msg_api_error e); EvWarning msg_api_warning] [p] in
  match generate p with
  | ApiRaised e => fail e
  | ApiText t =>
      match loads t with
      | inl e => fail e
      | inr matches => mk_fm matches [] [p]
      end
  end.

(** ** The "Find Matches" branch of [main] and the results display *)

(** The widget values kept in [st.session_state]; [matches] is [None]
    while the key is absent. *)
Record session : Type := mk_session {
  new_brief_text : string;
  target_audience : string;
  proposed_channels : list string;
  duration_days : Z;
  budget_value : Z;
  matches : option pyval
}.

Definition nl : string := String "010"%char EmptyString.
Definition indent20 : string := "                    ".

(** [additional_params], the f-string built in [main]. *)
Definition additional_params (s : session) : string :=
  nl ++ indent20 ++ "Target Audience: " ++ target_audience s ++ nl
  ++ indent20 ++ "Proposed Media Channels: " ++ join ", " (proposed_channels s) ++ nl
  ++ indent20 ++ "Duration: " ++ z_str (duration_days s) ++ " days" ++ nl
  ++ indent20.

Definition msg_no_brief := "Please paste a brief to match.".
Definition msg_empty_library := "Brief repository is empty or could not be loaded.".

(** The body of [if st.button("Find Matches", ...)]: the new session, the
    Streamlit calls made and the prompts sent. *)
Definition find_click (s : session) (brief_library : list record)
  : session * list event * list prompt :=
  if String.eqb (py_strip (new_brief_text s)) "" then
    (s, [EvWarning msg_no_brief], [])
  else
    match brief_library with
    | [] => (s, [EvWarning msg_empty_library], [])
    | _ :: _ =>
        let o := find_matches (new_brief_text s) (additional_params s)
                   (budget_value s) brief_library in
        (mk_session (new_brief_text s) (target_audience s) (proposed_channels s)
           (duration_days s) (budget_value s) (Some (fm_result o)),
         fm_events o, fm_sent o)
    end.

(** One run of [main] after the library is loaded ([brief_library]),
    with [clicked] telling whether "Find Matches" was pressed: the
    matching step, then [display_matches] when [matches] is set.  Returns
    the events, the prompts sent, and an exception escaping the display. *)
Definition main_run (clicked : bool) (s : session) (brief_library : list record)
  : session * list event * list prompt * option exn :=
  let '(s', ev, sent) :=
    if clicked then find_click s brief_library else (s, [], []) in
  match matches s' with
  | Some m =>
      let '(ev', e) := display_matches m brief_library in
      (s', (ev ++ ev')%list, sent, e)
  | None => (s', ev, sent, None)
  end.

End Matching.

(** ** [reset_form], [load_briefs] and the budget label *)

(** [reset_form]: every modelled widget back to its default and the
    [matches] key deleted (the date widget, which no modelled code reads,
    is not part of [session]); [st.rerun()] then starts a run of [main]
    in which "Find Matches" is not pressed. *)
Definition reset_form (s : session) : session :=
  mk_session "" "" [] 30 50000 None.

(** What [requests.get] and the pandas processing of [load_briefs]
    (lines 34-41) give: the records of [df.to_dict('records')], or an
    exception (with its [str]). *)
Inductive load_result : Type :=
| LoadRaised (msg : string)
| LoadRows (rows : list record).

Definition msg_load_error (e : string) := "Error loading data from Google Sheet: " ++ e.
Definition msg_load_info :=
  "Please ensure your Google Sheet is published to the web and the URL is correct.".

(** [load_briefs(url)]: the library and the Streamlit calls made. *)
Definition load_briefs (r : load_result) : list record * list event :=
  match r with
  | LoadRaised e => ([], [EvError (msg_load_error e); EvInfo msg_load_info])
  | LoadRows rows => (rows, [])
  end.

(** A run of [main] from the library load on. *)
Definition app_run (loads : string -> string + pyval) (generate : prompt -> api_result)
    (fetched : load_result) (clicked : bool) (s : session)
  : session * list event * list prompt * option exn :=
  let '(brief_library, ev_load) := load_briefs fetched in
  let '(s', ev, sent, e) := main_run loads generate clicked s brief_library in
  (s', (ev_load ++ ev)%list, sent, e).

(** The euro sign, in UTF-8. *)
Definition euro : string := String "226"%char (String "130"%char (String "172"%char EmptyString)).

(** [budget_label] of [main].  [budget_value / 1000] is a float and
    [int()] truncates it; for the slider's values (1000 to 300000) this is
    the integer quotient. *)
Definition budget_label (budget_value : Z) : string :=
  let label := euro ++ z_str (Z.quot budget_value 1000) ++ "k" in
  if Z.eqb budget_value 300000 then euro ++ "300k+" else label.

(** ** A decoder for the JSON fragment used in concrete runs

    [json_loads] agrees with Python's [json.loads] on texts built from
    [null], [true], [false], integers, strings, arrays and objects; a
    number with a fraction or an exponent is outside the fragment and is
    refused.  The error text of [JSONDecodeError] is not reproduced. *)

Definition json_ws (c : ascii) : bool :=
  Ascii.eqb c " " || Ascii.eqb c "009"%char || Ascii.eqb c "010"%char
  || Ascii.eqb c "013"%char.

Fixpoint skip_ws (cs : list ascii) : list ascii :=
  match cs with
  | c :: cs' => if json_ws c then skip_ws cs' else cs
  | [] => []
  end.

Definition is_digit (c : ascii) : bool :=
  let n := nat_of_ascii c in ((48 <=? n)%nat && (n <=? 57)%nat).

Definition digit_val (c : ascii) : Z := Z.of_nat (nat_of_ascii c - 48).

Fixpoint take_digits (acc : Z) (cs : list ascii) : Z * list ascii :=
  match cs with
  | c :: cs' => if is_digit c then take_digits (acc * 10 + digit_val c)%Z cs'
                else (acc, cs)
  | [] => (acc, [])
  end.

(** An integer without leading zeros, not followed by [.], [e] or [E]. *)
Definition parse_nat (cs : list ascii) : option (Z * list ascii) :=
  match cs with
  | "0"%char :: r =>
      match r with
      | c :: _ => if is_digit c then None else Some (0%Z, r)
      | [] => Some (0%Z, r)
      end
  | c :: r => if is_digit c then Some (take_digits (digit_val c) r) else None
  | [] => None
  end.

Definition no_fraction (r : list ascii) : bool :=
  match r with
  | c :: _ => negb (Ascii.eqb c "." || Ascii.eqb c "e" || Ascii.eqb c "E")
  | [] => true
  end.

Definition parse_int (cs : list ascii) : option (Z * list ascii) :=
  match cs with
  | "-"%char :: r =>
      match parse_nat r with
      | Some (z, r') => if no_fraction r' then Some ((- z)%Z, r') else None
      | None => None
      end
  | _ =>
      match parse_nat cs with
      | Some (z, r') => if no_fraction r' then Some (z, r') else None
      | None => None
      end
  end.

(** The body of a string literal after its opening quote. *)
Fixpoint parse_chars (cs : list ascii) : option (list ascii * list ascii) :=
  match cs with
  | [] => None
  | c :: r =>
      if Ascii.eqb c dquote then Some ([], r)
      else if Ascii.eqb c bslash then
        match r with
        | e :: r' =>
            let out :=
              if Ascii.eqb e dquote then Some dquote
              else if Ascii.eqb e bslash then Some bslash
              else if Ascii.eqb e "/" then Some "/"%char
              else if Ascii.eqb e "n" then Some "010"%char
              else if Ascii.eqb e "t" then Some "009"%char
              else if Ascii.eqb e "r" then Some "013"%char
              else None in
            match out, parse_chars r' with
            | Some o, Some (s, r'') => Some (o :: s, r'')
            | _, _ => None
            end
        | [] => None
        end
      else if (nat_of_ascii c <? 32)%nat then None
      else match parse_chars r with
           | Some (s, r') => Some (c :: s, r')
           | None => None
           end
  end.

(** [dict(pairs)]: a repeated key keeps its first place and its last value. *)
Fixpoint dict_set (d : list (string * pyval)) (k : string) (v : pyval)
  : list (string * pyval) :=
  match d with
  | [] => [(k, v)]
  | (k', v') :: d' => if String.eqb k' k then (k, v) :: d' else (k', v') :: dict_set d' k v
  end.

Fixpoint parse_value (fuel : nat) (cs : list ascii) : option (pyval * list ascii) :=
  match fuel with
  | O => None
  | S f =>
      match skip_ws cs with
      | "n"%char :: "u"%char :: "l"%char :: "l"%char :: r => Some (PNone, r)
      | "t"%char :: "r"%char :: "u"%char :: "e"%char :: r => Some (PBool true, r)
      | "f"%char :: "a"%char :: "l"%char :: "s"%char :: "e"%char :: r =>
          Some (PBool false, r)
      | "["%char :: r =>
          match skip_ws r with
          | "]"%char :: r' => Some (PList [], r')
          | _ => parse_elems f r []
          end
      | "{"%char :: r =>
          match skip_ws r with
          | "}"%char :: r' => Some (PDict [], r')
          | _ => parse_members f r []
          end
      | c :: r =>
          if Ascii.eqb c dquote then
            match parse_chars r with
            | Some (s, r') => Some (PStr (string_of_list_ascii s), r')
            | None => None
            end
          else
            match parse_int (c :: r) with
            | Some (z, r') => Some (PInt z, r')
            | None => None
            end
      | [] => None
      end
  end
with parse_elems (fuel : nat) (cs : list ascii) (acc : list pyval)
  : option (pyval * list ascii) :=
  match fuel with
  | O => None
  | S f =>
      match parse_value f cs with
      | Some (v, r) =>
          match skip_ws r with
          | ","%char :: r' => parse_elems f r' (acc ++ [v])
          | "]"%char :: r' => Some (PList (acc ++ [v]), r')
          | _ => None
          end
      | None => None
      end
  end
with parse_members (fuel : nat) (cs : list ascii) (acc : list (string * pyval))
  : option (pyval * list ascii) :=
  match fuel with
  | O => None
  | S f =>
      match skip_ws cs with
      | c :: r =>
          if Ascii.eqb c dquote then
            match parse_chars r with
            | Some (k, r1) =>
                match skip_ws r1 with
                | ":"%char :: r2 =>
                    match parse_value f r2 with
                    | Some (v, r3) =>
                        let acc' := dict_set acc (string_of_list_ascii k) v in
                        match skip_ws r3 with
                        | ","%char :: r4 => parse_members f r4 acc'
                        | "}"%char :: r4 => Some (PDict acc', r4)
                        | _ => None
                        end
                    | None => None
                    end
                | _ => None
                end
            | None => None
            end
          else None
      | [] => None
      end
  end.

Definition json_loads (text : string) : string + pyval :=
  let cs := list_ascii_of_string text in
  match parse_value (2 * List.length cs + 2) cs with
  | Some (v, r) =>
      match skip_ws r with
      | [] => inr v
      | _ => inl "Extra data"
      end
  | None => inl "Expecting value"
  end.

(** JSON texts are written below with a backquote for each double quote. *)
Fixpoint jq (s : string) : string :=
  match s with
  | EmptyString => EmptyString
  | String c s' => String (if Ascii.eqb c "`"%char then dquote else c) (jq s')
  end.

Example json_loads_list :
  json_loads (jq "[{`ID`: `7`, `scaled_reason`: `x`}, 12, -3, null]") =
  inr (PList [PDict [("ID", PStr "7"); ("scaled_reason", PStr "x")];
              PInt 12; PInt (-3); PNone]).
Proof. vm_compute. reflexivity. Qed.

Example json_loads_dup : json_loads (jq "{`a`: 1, `b`: 2, `a`: 3}") =
  inr (PDict [("a", PInt 3); ("b", PInt 2)]).
Proof. vm_compute. reflexivity. Qed.

Example json_loads_bad : json_loads "not json" = inl "Expecting value".
Proof. vm_compute. reflexivity. Qed.

Example json_loads_trailing : json_loads "[1] x" = inl "Extra data".
Proof. vm_compute. reflexivity. Qed.

(** ** Lemmas on the embedding *)

Lemma find_brief_none (brief_library : list record) (match_id : pyval) :
  (forall b, In b brief_library ->
        py_str (dict_get b "ID" PNone) <> py_str match_id) ->
  find_brief brief_library match_id = None.
Proof.
  unfold find_brief. induction brief_library as [|b l IH]; intros H; [reflexivity|].
  simpl. destruct (String.eqb_spec (py_str (dict_get b "ID" PNone)) (py_str match_id)) as [E|_].
  - exfalso. exact (H b (or_introl eq_refl) E).
  - apply IH. intros b' Hb'. apply H. right. exact Hb'.
Qed.

Lemma find_brief_first (l1 l2 : list record) (b : record) (match_id : pyval) :
  (forall b', In b' l1 -> py_str (dict_get b' "ID" PNone) <> py_str match_id) ->
  py_str (dict_get b "ID" PNone) = py_str match_id ->
  find_brief (l1 ++ b :: l2) match_id = Some b.
Proof.
  unfold find_brief. induction l1 as [|b1 l1 IH]; intros H E; simpl.
  - rewrite E, String.eqb_refl. reflexivity.
  - destruct (String.eqb_spec (py_str (dict_get b1 "ID" PNone)) (py_str match_id)) as [E1|_].
    + exfalso. exact (H b1 (or_introl eq_refl) E1).
    + apply IH; [|exact E]. intros b' Hb'. apply H. right. exact Hb'.
Qed.


(** A row with a truthy [ID] is not empty. *)
Lemma row_nonempty (b : record) :
  truthy (dict_get b "ID" PNone) = true -> truthy (PDict b) = true.
Proof. destruct b; [discriminate | reflexivity]. Qed.

(** ** Concrete inputs *)

(** The library of the spec's budget scenario. *)
Definition scenario_library : list record :=
  [ [ ("ID", PStr "1"); ("Generic_Campaign_Concept", PStr "Pop-up studio");
      ("Generic_Brand_Category", PStr "Fintech");
      ("Budget_Description", PStr "Reduced 5000; Full 20000");
      ("Minimum_Viable_Budget", PInt 10000) ] ].


Definition scenario_session (budget : Z) : session :=
  mk_session "Drive app downloads among young professionals." "Gen Z" ["Video"]
    30 budget None.

(** A model that answers every prompt with the same text. *)
Definition answer (t : string) : prompt -> api_result := fun _ => ApiText t.

(** ** C1: failures at the boundary of the matching operation *)

(** C1 (as stated: no failure raises into the display) is refuted: the
    model answers with the JSON object [{"ID": "1"}] instead of an array;
    [find_matches] returns the decoded dict and [display_matches] raises
    [KeyError] on [matches[0]]. *)
Lemma C1_display_raises_on_object :
  let '(_, _, _, e) :=
    main_run json_loads (answer (jq "{`ID`: `1`, `scaled_reason`: `fits`}")) true
      (scenario_session 50000) scenario_library in
  e = Some KeyError.
Proof. vm_compute. reflexivity. Qed.

(** C1 (amended): [find_matches] catches every exception of the model
    call and of [json.loads], showing an error and a warning and returning
    [[]]; otherwise it returns the decoded value unchanged with no message.
    [display_matches] raises nothing exactly when that value is falsy or
    is a list whose first element is an object. *)
Theorem C1_boundary_behaviour :
  (forall loads generate new_brief params user_budget brief_library,
     let o := find_matches loads generate new_brief params user_budget brief_library in
     let p := mk_prompt new_brief params user_budget (simplified_briefs brief_library) in
     fm_sent o = [p] /\
     ((exists e, fm_result o = PList [] /\
                 fm_events o = [EvError (msg_api_error e); EvWarning msg_api_warning] /\
                 (generate p = ApiRaised e \/ exists t, generate p = ApiText t /\ loads t = inl e))
      \/ (exists t, generate p = ApiText t /\ loads t = inr (fm_result o) /\ fm_events o = [])))
  /\
  (forall matches brief_library,
     snd (display_matches matches brief_library) = None <->
     (truthy matches = false \/
      exists d rest, matches = PList (PDict d :: rest))).
Proof.
  split.
  - intros loads generate nb pr bud lib o p. subst o p. unfold find_matches.
    destruct (generate _) as [e|t] eqn:G; simpl.
    + split; [reflexivity|]. left. exists e. auto.
    + destruct (loads t) as [e|v] eqn:L; simpl; (split; [reflexivity|]).
      * left. exists e. split; [reflexivity|]. split; [reflexivity|].
        right. exists t. auto.
      * right. exists t. auto.
  - intros v lib. unfold display_matches.
    destruct (truthy v) eqn:T.
    + destruct v as [| b | z | str | xs | kvs]; simpl in T |- *.
      * discriminate.
      * split; [discriminate|]. intros [H|(d & r & H)]; [congruence | discriminate].
      * split; [discriminate|]. intros [H|(d & r & H)]; [congruence | discriminate].
      * destruct str as [|c str']; [discriminate|]. simpl.
        split; [discriminate|]. intros [H|(d & r & H)]; [congruence | discriminate].
      * destruct xs as [|x xs']; [discriminate|]. simpl.
        destruct x as [| | | | | d]; simpl;
          try (split; [discriminate| intros [H|(d' & r & H)]; [congruence | discriminate]]).
        split; [intros _; right; exists d, xs'; reflexivity|intros _].
        destruct (negb (truthy (dict_get d "ID" PNone))); [reflexivity|].
        destruct (find_brief lib _) as [ob|]; [|reflexivity].
        destruct ob; reflexivity.
      * destruct kvs; [discriminate|]. simpl.
        split; [discriminate|]. intros [H|(d & r & H)]; [congruence | discriminate].
    + split; [intros _; left; reflexivity | intros _; reflexivity].
Qed.

(** ** C2: empty brief, empty library *)

Lemma lstrip_all_space (chs : list chunk) :
  (forall ch, In ch chs -> chunk_space ch = true) -> lstrip_chunks chs = [].
Proof.
  induction chs as [|ch chs IH]; intros H; [reflexivity|].
  simpl. rewrite (H ch (or_introl eq_refl)). apply IH. intros c' Hc. apply H. right. exact Hc.
Qed.

Lemma lstrip_nil_iff (chs : list chunk) :
  lstrip_chunks chs = [] <-> (forall ch, In ch chs -> chunk_space ch = true).
Proof.
  split; [|apply lstrip_all_space].
  induction chs as [|ch chs IH]; simpl; [intros _ ch []|].
  destruct (chunk_space ch) eqn:Sc; [|discriminate].
  intros H ch' [<-|Hc']; [exact Sc | exact (IH H ch' Hc')].
Qed.

(** [lstrip_chunks] removes a whitespace prefix. *)
Lemma lstrip_split (chs : list chunk) :
  exists pre, chs = (pre ++ lstrip_chunks chs)%list /\
              (forall ch, In ch pre -> chunk_space ch = true).
Proof.
  induction chs as [|ch chs (pre & E & H)]; simpl.
  - exists []. split; [reflexivity | intros ch []].
  - destruct (chunk_space ch) eqn:Sc.
    + exists (ch :: pre). split; [simpl; rewrite <- E; reflexivity|].
      intros ch' [<-|Hc']; [exact Sc | exact (H ch' Hc')].
    + exists []. split; [reflexivity | intros ch' []].
Qed.

Lemma all_space_lstrip (chs : list chunk) :
  (forall ch, In ch (lstrip_chunks chs) -> chunk_space ch = true) ->
  (forall ch, In ch chs -> chunk_space ch = true).
Proof.
  destruct (lstrip_split chs) as (pre & E & Hpre). intros H ch Hc.
  rewrite E in Hc. apply in_app_or in Hc as [Hc|Hc]; auto.
Qed.

(** Every chunk has a byte, so the bytes of chunks are empty only for no chunk. *)
Lemma chunk_bytes_nil (chs : list chunk) :
  List.concat (map chunk_bytes chs) = [] -> chs = [].
Proof. destruct chs; [reflexivity | discriminate]. Qed.

Lemma string_of_list_ascii_nil (cs : list ascii) :
  string_of_list_ascii cs = "" -> cs = [].
Proof. destruct cs; [reflexivity | discriminate]. Qed.

(** [s.strip()] is empty exactly when every code point of [s] is
    whitespace. *)
Lemma py_strip_empty_iff (s : string) :
  py_strip s = "" <-> (forall ch, In ch (text_chunks s) -> chunk_space ch = true).
Proof.
  unfold py_strip. split.
  - intros H. apply string_of_list_ascii_nil, chunk_bytes_nil in H.
    assert (N : lstrip_chunks (rev (lstrip_chunks (text_chunks s))) = []).
    { apply (f_equal (@rev chunk)) in H. rewrite rev_involutive in H. exact H. }
    pose proof (proj1 (lstrip_nil_iff _) N) as N'. apply all_space_lstrip.
    intros ch Hc. apply N'. apply -> in_rev. exact Hc.
  - intros H. rewrite (lstrip_all_space _ H). reflexivity.
Qed.

(** C2: when the brief text is empty after [strip()] (which is the case
    exactly when all its code points are whitespace, non-ASCII ones such
    as U+00A0 included), or when the library is empty, pressing "Find
    Matches" shows a warning, leaves the session (and so [matches])
    unchanged and sends no prompt: [find_matches] is not called. *)
Theorem C2_empty_input_no_request :
  forall loads generate s brief_library,
    (py_strip (new_brief_text s) = "" ->
     find_click loads generate s brief_library = (s, [EvWarning msg_no_brief], []))
    /\
    (brief_library = [] ->
     exists msg, find_click loads generate s brief_library = (s, [EvWarning msg], []))
    /\
    (py_strip (new_brief_text s) = "" <->
     (forall ch, In ch (text_chunks (new_brief_text s)) -> chunk_space ch = true)).
Proof.
  intros loads generate s lib. split; [|split].
  - intros E. unfold find_click. rewrite E. reflexivity.
  - intros ->. unfold find_click.
    destruct (String.eqb (py_strip (new_brief_text s)) "").
    + exists msg_no_brief. reflexivity.
    + exists msg_empty_library. reflexivity.
  - apply py_strip_empty_iff.
Qed.

(** A no-break space (U+00A0, bytes 194 160) and a tab. *)
Definition nbsp_tab : string :=
  String "194"%char (String "160"%char (String "009"%char EmptyString)).

Lemma C2_witness :
  find_click json_loads (answer "[]")
    (mk_session nbsp_tab "" [] 30 50000 None) scenario_library
  = (mk_session nbsp_tab "" [] 30 50000 None, [EvWarning msg_no_brief], [])
  /\
  exists msg,
    find_click json_loads (answer "[]") (scenario_session 50000) []
    = (scenario_session 50000, [EvWarning msg], []).
Proof.
  split.
  - apply (proj1 (C2_empty_input_no_request json_loads (answer "[]")
                    (mk_session nbsp_tab "" [] 30 50000 None) scenario_library)).
    vm_compute. reflexivity.
  - apply (proj1 (proj2 (C2_empty_input_no_request json_loads (answer "[]")
                           (scenario_session 50000) []))). reflexivity.
Defined.

(** ** C3: malformed and ill-shaped responses *)

(** C3 (as stated: a parsed value that is not a list of objects with a
    non-empty [ID] fails with a schema error) is refuted: an answer [5]
    is returned by [find_matches] as the value [5], with no message. *)
Lemma C3_no_schema_check :
  let o := find_matches json_loads (answer "5") "Drive app downloads." ""
             50000 scenario_library in
  fm_result o = PInt 5 /\ fm_events o = [].
Proof. vm_compute. split; reflexivity. Qed.

(** C3 (amended): when the model's text does not decode, [find_matches]
    shows the generic API error (with the decoder's message) and the
    "Could not connect" warning and returns [[]], as for any API failure;
    when it decodes, the value is returned unchanged whatever its shape,
    with no diagnostic. *)
Theorem C3_decode_failure_caught :
  forall loads generate new_brief params user_budget brief_library t,
    generate (mk_prompt new_brief params user_budget (simplified_briefs brief_library))
      = ApiText t ->
    let o := find_matches loads generate new_brief params user_budget brief_library in
    (forall e, loads t = inl e ->
       fm_result o = PList [] /\
       fm_events o = [EvError (msg_api_error e); EvWarning msg_api_warning])
    /\
    (forall v, loads t = inr v -> fm_result o = v /\ fm_events o = []).
Proof.
  intros loads generate nb pr bud lib t G o. subst o. unfold find_matches.
  rewrite G. split; intros x L; rewrite L; split; reflexivity.
Qed.

Lemma C3_witness :
  (fm_result (find_matches json_loads (answer "not json") "Drive app downloads." ""
                50000 scenario_library) = PList [] /\
   fm_events (find_matches json_loads (answer "not json") "Drive app downloads." ""
                50000 scenario_library)
   = [EvError (msg_api_error "Expecting value"); EvWarning msg_api_warning])
  /\
  (fm_result (find_matches json_loads (answer "5") "Drive app downloads." ""
                50000 scenario_library) = PInt 5 /\
   fm_events (find_matches json_loads (answer "5") "Drive app downloads." ""
                50000 scenario_library) = []).
Proof.
  split.
  - apply (proj1 (C3_decode_failure_caught json_loads (answer "not json")
                    "Drive app downloads." "" 50000 scenario_library "not json"
                    eq_refl)).
    vm_compute. reflexivity.
  - apply (proj2 (C3_decode_failure_caught json_loads (answer "5")
                    "Drive app downloads." "" 50000 scenario_library "5" eq_refl)).
    vm_compute. reflexivity.
Defined.

(** ** C4: reconciliation by [str] equality *)

Definition library_7 : list record :=
  [ [ ("ID", PInt 7); ("Generic_Campaign_Concept", PStr "Street gallery") ] ].

(** C4 (as stated, with the spec's keys [id] and [explanation]) is
    refuted: [display_matches] reads the key [ID], so the entry is taken
    as having no ID and no record is shown, although the library has a
    record with ID 7. *)
Lemma C4_lowercase_id_not_read :
  match json_loads (jq "[{`id`:`7`,`explanation`:`x`}]") with
  | inr v => display_matches v library_7 = ([display_header; EvWarning msg_missing_id], None)
  | inl _ => False
  end.
Proof. vm_compute. reflexivity. Qed.

(** C4 (amended): with the key [ID], an entry whose ID is ["7"] or [7]
    shows the first record of the library whose [str(ID)] is ["7"] (so a
    record with ID ["7"] or [7]); when no record has such an ID, the tool
    shows "Matched brief ID '7' not found in the library." and no record. *)
Theorem C4_str_normalised_lookup :
  forall (match_id : pyval) (brief_library : list record),
    (match_id = PStr "7" \/ match_id = PInt 7) ->
    let matches := PList [PDict [("ID", match_id); ("scaled_reason", PStr "x")]] in
    ((forall b, In b brief_library -> py_str (dict_get b "ID" PNone) <> "7") ->
     display_matches matches brief_library
     = ([display_header; EvError (msg_not_found match_id)], None))
    /\
    (forall l1 b l2, brief_library = (l1 ++ b :: l2)%list ->
     (forall b', In b' l1 -> py_str (dict_get b' "ID" PNone) <> "7") ->
     (dict_get b "ID" PNone = PStr "7" \/ dict_get b "ID" PNone = PInt 7) ->
     display_matches matches brief_library = (display_header :: show_brief b (PStr "x"), None)).
Proof.
  intros mid lib Hid matches. subst matches.
  assert (S7 : py_str mid = "7") by (destruct Hid as [->| ->]; reflexivity).
  assert (T7 : truthy mid = true) by (destruct Hid as [->| ->]; reflexivity).
  split.
  - intros H. unfold display_matches. simpl. rewrite T7. simpl.
    rewrite find_brief_none; [reflexivity|]. rewrite S7. exact H.
  - intros l1 b l2 -> H1 Hb. unfold display_matches. simpl. rewrite T7. simpl.
    rewrite find_brief_first.
    + destruct b as [|kv b']; [destruct Hb as [H|H]; discriminate | reflexivity].
    + rewrite S7. exact H1.
    + rewrite S7. destruct Hb as [->| ->]; reflexivity.
Qed.

Lemma C4_witness :
  display_matches (PList [PDict [("ID", PStr "7"); ("scaled_reason", PStr "x")]]) library_7
  = (display_header :: show_brief (hd [] library_7) (PStr "x"), None).
Proof.
  apply (proj2 (C4_str_normalised_lookup (PStr "7") library_7 (or_introl eq_refl))
           [] (hd [] library_7) []).
  - reflexivity.
  - intros b' [].
  - right. reflexivity.
Defined.

(** ** C5: an unresolved ID *)




(** ** C6, C7: the budget rule *)

Definition scenario_answer : string :=
  jq "[{`ID`: `1`, `scaled_reason`: `A pop-up studio, scaled down.`}]".

(** C6 (as stated: a budget below the candidate's
    [Minimum_Viable_Budget] yields a rejection) is refuted: with a budget
    of 8000 and the record of minimum 10000 named by the model, the tool
    displays that record. *)
Lemma C6_below_minimum_displayed :
  dict_get (hd [] scenario_library) "Minimum_Viable_Budget" PNone = PInt 10000 /\
  let '(_, ev, _, e) :=
    main_run json_loads (answer scenario_answer) true (scenario_session 8000)
      scenario_library in
  ev = display_header :: show_brief (hd [] scenario_library)
                           (PStr "A pop-up studio, scaled down.") /\ e = None.
Proof. vm_compute. split; [reflexivity | split; reflexivity]. Qed.

(** C6 (amended): no code evaluates the budget; the minimum-budget rule
    is only an instruction in the prompt.  When the model's decoded answer
    names a record [b] of the library as its entry, [display_matches]
    renders [b], whatever the budget and [b]'s [Minimum_Viable_Budget]. *)
Theorem C6_record_shown_regardless_of_budget :
  forall loads generate new_brief params user_budget brief_library t b reason,
    generate (mk_prompt new_brief params user_budget (simplified_briefs brief_library))
      = ApiText t ->
    loads t = inr (PList [PDict [("ID", dict_get b "ID" PNone); ("scaled_reason", reason)]]) ->
    truthy (dict_get b "ID" PNone) = true ->
    find_brief brief_library (dict_get b "ID" PNone) = Some b ->
    display_matches
      (fm_result (find_matches loads generate new_brief params user_budget brief_library))
      brief_library
    = (display_header :: show_brief b reason, None).
Proof.
  intros loads generate nb pr bud lib t b reason G L T F.
  unfold find_matches. rewrite G, L. simpl.
  unfold display_matches. simpl. rewrite T. simpl. rewrite F.
  pose proof (row_nonempty b T) as R. simpl in R. rewrite R. reflexivity.
Qed.

Lemma C6_witness :
  display_matches
    (fm_result (find_matches json_loads (answer scenario_answer)
                  "Drive app downloads." "" 8000 scenario_library))
    scenario_library
  = (display_header :: show_brief (hd [] scenario_library)
                         (PStr "A pop-up studio, scaled down."), None).
Proof.
  apply (C6_record_shown_regardless_of_budget json_loads (answer scenario_answer)
           "Drive app downloads." "" 8000 scenario_library scenario_answer).
  - reflexivity.
  - vm_compute. reflexivity.
  - reflexivity.
  - reflexivity.
Defined.

(** C7 (as stated: the decision is a deterministic function of the
    candidate and the budget) is refuted: on the same session and library,
    two runs whose model calls answer differently end differently, one
    showing the record, the other the no-match message. *)
Lemma C7_decision_from_model_call :
  let '(_, ev1, _, _) :=
    main_run json_loads (answer scenario_answer) true (scenario_session 15000)
      scenario_library in
  let '(_, ev2, _, _) :=
    main_run json_loads (answer "[]") true (scenario_session 15000) scenario_library in
  ev1 <> ev2.
Proof. vm_compute. discriminate. Qed.

(** C7 (amended): there is no local budget evaluation; the decision is
    the model's answer to the network call in [find_matches].  Given that
    answer, [find_matches] is determined and does not depend on the budget
    (nor on the model used): two calls whose model calls answer the same
    return the same value and show the same messages. *)
Theorem C7_outcome_determined_by_answer :
  forall loads generate1 generate2 new_brief params budget1 budget2 brief_library,
    generate1 (mk_prompt new_brief params budget1 (simplified_briefs brief_library))
    = generate2 (mk_prompt new_brief params budget2 (simplified_briefs brief_library)) ->
    fm_result (find_matches loads generate1 new_brief params budget1 brief_library)
    = fm_result (find_matches loads generate2 new_brief params budget2 brief_library) /\
    fm_events (find_matches loads generate1 new_brief params budget1 brief_library)
    = fm_events (find_matches loads generate2 new_brief params budget2 brief_library).
Proof.
  intros loads g1 g2 nb pr b1 b2 lib G. unfold find_matches. rewrite G.
  destruct (g2 _) as [e|t]; [split; reflexivity|].
  destruct (loads t); split; reflexivity.
Qed.

Lemma C7_witness :
  fm_result (find_matches json_loads (answer scenario_answer)
               "Drive app downloads." "" 8000 scenario_library)
  = fm_result (find_matches json_loads (answer scenario_answer)
                 "Drive app downloads." "" 25000 scenario_library) /\
  fm_events (find_matches json_loads (answer scenario_answer)
               "Drive app downloads." "" 8000 scenario_library)
  = fm_events (find_matches json_loads (answer scenario_answer)
                 "Drive app downloads." "" 25000 scenario_library).
Proof.
  apply (C7_outcome_determined_by_answer json_loads (answer scenario_answer)
           (answer scenario_answer) "Drive app downloads." "" 8000 25000
           scenario_library).
  reflexivity.
Defined.

(** ** C8: the candidate projection *)

(** The keys of an entry of [simplified_briefs], in order. *)
Definition simplified_keys : list string :=
  [ "ID"; "Generic_Campaign_Concept"; "Generic_Brand_Category";
    "Generic_Key_Objective"; "Generic_Audience_Profile"; "Core_Creative_Tactic";
    "Supporting_Media_Tactics"; "Budget_Description"; "Minimum_Viable_Budget" ].

Definition case_study_row : record :=
  [ ("ID", PStr "3"); ("kind", PStr "CaseStudy");
    ("Generic_Campaign_Concept", PStr "Night run") ].

(** C8 (as stated: every projected candidate carries its [kind]) is
    refuted: the projection keeps none of a row's other columns, so a row
    with a [kind] column is sent without it. *)
Lemma C8_no_kind_in_projection :
  dict_get case_study_row "kind" PNone = PStr "CaseStudy" /\
  existsb (fun kv => String.eqb (fst kv) "kind")
    (hd [] (simplified_briefs [case_study_row])) = false.
Proof. vm_compute. split; reflexivity. Qed.

(** C8 (amended): for a brief that is not empty after [strip()] and a
    non-empty library, "Find Matches" sends exactly one prompt; its
    candidate list has one entry per record, in library order, each with
    exactly the keys of [simplified_keys] (no kind), and the entries' [ID]s
    are the records' [ID]s (an empty text for a row without one). *)
Theorem C8_projection_keeps_ids :
  forall loads generate s brief_library,
    py_strip (new_brief_text s) <> "" ->
    brief_library <> [] ->
    let '(_, _, sent) := find_click loads generate s brief_library in
    exists p, sent = [p] /\
      p_library p = simplified_briefs brief_library /\
      map (fun e => dict_get e "ID" PNone) (p_library p)
      = map (fun b => dict_get b "ID" (PStr "")) brief_library /\
      Forall (fun e => map fst e = simplified_keys) (p_library p).
Proof.
  intros loads generate s lib Hs Hl. unfold find_click.
  destruct (String.eqb_spec (py_strip (new_brief_text s)) "") as [E|_];
    [contradiction|].
  destruct lib as [|b lib']; [contradiction|].
  unfold find_matches. cbv zeta.
  set (p := mk_prompt _ _ _ _).
  assert (Hsent : forall r, fm_sent
            (match r with
             | ApiRaised e => mk_fm (PList []) [EvError (msg_api_error e); EvWarning msg_api_warning] [p]
             | ApiText t => match loads t with
                            | inl e => mk_fm (PList []) [EvError (msg_api_error e); EvWarning msg_api_warning] [p]
                            | inr m => mk_fm m [] [p]
                            end
             end) = [p]).
  { intros [e|t]; [reflexivity|]. destruct (loads t); reflexivity. }
  exists p. split; [apply Hsent|]. split; [reflexivity|]. split.
  - subst p. simpl. unfold simplified_briefs. rewrite map_map. reflexivity.
  - subst p. cbn [p_library]. apply Forall_forall. intros e He.
    unfold simplified_briefs in He. apply in_map_iff in He as (b0 & <- & _).
    reflexivity.
Qed.

Lemma C8_witness :
  let '(_, _, sent) :=
    find_click json_loads (answer "[]") (scenario_session 50000) [case_study_row] in
  exists p, sent = [p] /\
    p_library p = simplified_briefs [case_study_row] /\
    map (fun e => dict_get e "ID" PNone) (p_library p)
    = map (fun b => dict_get b "ID" (PStr "")) [case_study_row] /\
    Forall (fun e => map fst e = simplified_keys) (p_library p).
Proof.
  apply (C8_projection_keeps_ids json_loads (answer "[]") (scenario_session 50000)
           [case_study_row]).
  - vm_compute. discriminate.
  - discriminate.
Defined.

(** ** C9, C10: length of the result and the first entry *)





(** C10: of a list of two or more matches, [display_matches] examines
    the first element only: it behaves exactly as on the list of that
    element alone, so the later ones are dropped with no message. *)
Theorem C10_only_first_examined :
  forall (x y : pyval) (rest : list pyval) (brief_library : list record),
    display_matches (PList (x :: y :: rest)) brief_library
    = display_matches (PList [x]) brief_library.
Proof. intros x y rest lib. reflexivity. Qed.

(** * Further properties of [src/app.py] *)

(** ** The "Find Matches" guard *)

(** X1: pressing "Find Matches" sends exactly one prompt, built from the
    brief text, [additional_params], the budget and the projected
    library, when the brief is not blank after [strip()] and the library
    is not empty; otherwise it sends nothing. *)
Theorem X1_find_click_sends_iff :
  forall loads generate s brief_library,
    (py_strip (new_brief_text s) <> "" ->
     brief_library <> [] ->
     snd (find_click loads generate s brief_library)
     = [mk_prompt (new_brief_text s) (additional_params s) (budget_value s)
          (simplified_briefs brief_library)])
    /\
    (py_strip (new_brief_text s) = "" \/ brief_library = [] ->
     snd (find_click loads generate s brief_library) = []).
Proof.
  intros loads generate s lib. split.
  - intros Hs Hl. unfold find_click.
    destruct (String.eqb_spec (py_strip (new_brief_text s)) "") as [E|_];
      [contradiction|].
    destruct lib as [|b lib']; [contradiction|].
    unfold find_matches. destruct (generate _) as [e|t]; [reflexivity|].
    destruct (loads t); reflexivity.
  - intros [E| ->]; unfold find_click.
    + rewrite E. reflexivity.
    + destruct (String.eqb _ ""); reflexivity.
Qed.

Lemma X1_witness :
  snd (find_click json_loads (answer "[]") (scenario_session 50000) scenario_library)
  = [mk_prompt (new_brief_text (scenario_session 50000))
       (additional_params (scenario_session 50000)) 50000
       (simplified_briefs scenario_library)]
  /\
  snd (find_click json_loads (answer "[]") (mk_session nbsp_tab "" [] 30 50000 None)
         scenario_library) = [].
Proof.
  split.
  - apply (proj1 (X1_find_click_sends_iff json_loads (answer "[]")
                    (scenario_session 50000) scenario_library)).
    + vm_compute. discriminate.
    + discriminate.
  - apply (proj2 (X1_find_click_sends_iff json_loads (answer "[]")
                    (mk_session nbsp_tab "" [] 30 50000 None) scenario_library)).
    left. vm_compute. reflexivity.
Defined.

(** ** Runs of [main] *)

Definition with_matches (s : session) (m : pyval) : session :=
  mk_session (new_brief_text s) (target_audience s) (proposed_channels s)
    (duration_days s) (budget_value s) (Some m).

Lemma find_click_go loads generate s brief_library :
  py_strip (new_brief_text s) <> "" -> brief_library <> [] ->
  find_click loads generate s brief_library
  = (let o := find_matches loads generate (new_brief_text s) (additional_params s)
                (budget_value s) brief_library in
     (with_matches s (fm_result o), fm_events o, fm_sent o)).
Proof.
  intros Hs Hl. unfold find_click.
  destruct (String.eqb_spec (py_strip (new_brief_text s)) "") as [E|_]; [contradiction|].
  destruct brief_library; [contradiction | reflexivity].
Qed.

(** X2: when the model call or the decoding of its answer fails, a run
    with "Find Matches" pressed stores [[]], shows the API error and the
    "Could not connect" warning, and then, under the header, the "No
    close matches found" message: a failure is displayed as a no-match. *)
Theorem X2_api_failure_shown_as_no_match :
  forall loads generate s brief_library e,
    py_strip (new_brief_text s) <> "" -> brief_library <> [] ->
    let p := mk_prompt (new_brief_text s) (additional_params s) (budget_value s)
               (simplified_briefs brief_library) in
    (generate p = ApiRaised e \/ exists t, generate p = ApiText t /\ loads t = inl e) ->
    main_run loads generate true s brief_library
    = (with_matches s (PList []),
       [EvError (msg_api_error e); EvWarning msg_api_warning; display_header;
        EvInfo msg_no_match],
       [p], None).
Proof.
  intros loads generate s lib e Hs Hl p H. unfold main_run.
  rewrite (find_click_go loads generate s lib Hs Hl).
  unfold find_matches. fold p.
  destruct H as [G|(t & G & L)]; rewrite G; [|rewrite L]; reflexivity.
Qed.

Lemma X2_witness :
  main_run json_loads (answer "not json") true (scenario_session 50000) scenario_library
  = (with_matches (scenario_session 50000) (PList []),
     [EvError (msg_api_error "Expecting value"); EvWarning msg_api_warning; display_header;
      EvInfo msg_no_match],
     [mk_prompt (new_brief_text (scenario_session 50000))
        (additional_params (scenario_session 50000)) 50000
        (simplified_briefs scenario_library)], None).
Proof.
  apply (X2_api_failure_shown_as_no_match json_loads (answer "not json")
           (scenario_session 50000) scenario_library "Expecting value").
  - vm_compute. discriminate.
  - discriminate.
  - right. exists "not json". split; [reflexivity | vm_compute; reflexivity].
Defined.

(** X3: when the model's answer decodes to [v], a run with "Find
    Matches" pressed stores [v] in [matches] (the other fields unchanged)
    and shows exactly what [display_matches v] shows, raising what it
    raises. *)
Theorem X3_decoded_answer_displayed :
  forall loads generate s brief_library t v,
    py_strip (new_brief_text s) <> "" -> brief_library <> [] ->
    let p := mk_prompt (new_brief_text s) (additional_params s) (budget_value s)
               (simplified_briefs brief_library) in
    generate p = ApiText t -> loads t = inr v ->
    main_run loads generate true s brief_library
    = (with_matches s v, fst (display_matches v brief_library), [p],
       snd (display_matches v brief_library)).
Proof.
  intros loads generate s lib t v Hs Hl p G L. unfold main_run.
  rewrite (find_click_go loads generate s lib Hs Hl).
  unfold find_matches. fold p. rewrite G, L. simpl.
  destruct (display_matches v lib); reflexivity.
Qed.

Lemma X3_witness :
  main_run json_loads (answer scenario_answer) true (scenario_session 50000) scenario_library
  = (with_matches (scenario_session 50000)
       (PList [PDict [("ID", PStr "1"); ("scaled_reason", PStr "A pop-up studio, scaled down.")]]),
     fst (display_matches
            (PList [PDict [("ID", PStr "1");
                           ("scaled_reason", PStr "A pop-up studio, scaled down.")]])
            scenario_library),
     [mk_prompt (new_brief_text (scenario_session 50000))
        (additional_params (scenario_session 50000)) 50000
        (simplified_briefs scenario_library)],
     snd (display_matches
            (PList [PDict [("ID", PStr "1");
                           ("scaled_reason", PStr "A pop-up studio, scaled down.")]])
            scenario_library)).
Proof.
  apply (X3_decoded_answer_displayed json_loads (answer scenario_answer)
           (scenario_session 50000) scenario_library scenario_answer).
  - vm_compute. discriminate.
  - discriminate.
  - reflexivity.
  - vm_compute. reflexivity.
Defined.

(** X5: when "Find Matches" is pressed with a blank brief, the warning is
    followed by the display of the matches stored by an earlier search:
    the old result stays on screen, and no prompt is sent. *)
Theorem X5_blank_brief_keeps_old_result :
  forall loads generate s brief_library m,
    py_strip (new_brief_text s) = "" -> matches s = Some m ->
    main_run loads generate true s brief_library
    = (s, EvWarning msg_no_brief :: fst (display_matches m brief_library), [],
       snd (display_matches m brief_library)).
Proof.
  intros loads generate s lib m Hs Hm. unfold main_run, find_click.
  rewrite Hs. simpl. rewrite Hm. destruct (display_matches m lib); reflexivity.
Qed.

Lemma X5_witness :
  main_run json_loads (answer "[]") true
    (mk_session nbsp_tab "" [] 30 50000 (Some (PList []))) scenario_library
  = (mk_session nbsp_tab "" [] 30 50000 (Some (PList [])),
     EvWarning msg_no_brief :: fst (display_matches (PList []) scenario_library), [],
     snd (display_matches (PList []) scenario_library)).
Proof.
  apply (X5_blank_brief_keeps_old_result json_loads (answer "[]")
           (mk_session nbsp_tab "" [] 30 50000 (Some (PList []))) scenario_library (PList []));
    vm_compute; reflexivity.
Defined.

(** X6: after "Reset Fields", the run shows no result and sends nothing;
    pressing "Find Matches" on the reset form only shows the blank-brief
    warning. *)
Theorem X6_reset_clears_results :
  forall loads generate s brief_library clicked,
    main_run loads generate clicked (reset_form s) brief_library
    = (reset_form s, if clicked then [EvWarning msg_no_brief] else [], [], None).
Proof. intros loads generate s lib [|]; reflexivity. Qed.

(** X7: when loading the library fails, the run shows the load error and
    hint, sends no prompt whatever is pressed, and "Find Matches" with a
    non-blank brief then shows the empty-repository warning. *)
Theorem X7_load_failure_no_request :
  forall loads generate e s clicked,
    let '(_, ev, sent, _) := app_run loads generate (LoadRaised e) clicked s in
    sent = [] /\
    firstn 2 ev = [EvError (msg_load_error e); EvInfo msg_load_info] /\
    (clicked = true -> py_strip (new_brief_text s) <> "" ->
     nth_error ev 2 = Some (EvWarning msg_empty_library)).
Proof.
  intros loads generate e s clicked. unfold app_run, load_briefs, main_run.
  destruct clicked.
  - unfold find_click.
    destruct (String.eqb_spec (py_strip (new_brief_text s)) "") as [E|NE].
    + destruct (matches s) as [m|]; [destruct (display_matches m [])|]; simpl;
        (split; [reflexivity | split; [reflexivity | intros _ H; contradiction]]).
    + destruct (matches s) as [m|]; [destruct (display_matches m [])|]; simpl;
        (split; [reflexivity | split; [reflexivity | intros _ _; reflexivity]]).
  - destruct (matches s) as [m|]; [destruct (display_matches m [])|]; simpl;
      (split; [reflexivity | split; [reflexivity | discriminate]]).
Qed.

Lemma X7_witness :
  let '(_, ev, sent, _) :=
    app_run json_loads (answer "[]") (LoadRaised "404 Client Error") true
      (scenario_session 50000) in
  sent = [] /\
  firstn 2 ev = [EvError (msg_load_error "404 Client Error"); EvInfo msg_load_info] /\
  (true = true -> py_strip (new_brief_text (scenario_session 50000)) <> "" ->
   nth_error ev 2 = Some (EvWarning msg_empty_library)).
Proof.
  exact (X7_load_failure_no_request json_loads (answer "[]") "404 Client Error"
           (scenario_session 50000) true).
Defined.

(** ** What [display_matches] shows for the first entry *)

Lemma dict_get_absent (d : list (string * pyval)) (k : string) (default : pyval) :
  (forall kv, In kv d -> fst kv <> k) -> dict_get d k default = default.
Proof.
  induction d as [|[k' v] d IH]; intros H; [reflexivity|]. simpl.
  destruct (String.eqb_spec k' k) as [E|_].
  - exfalso. exact (H (k', v) (or_introl eq_refl) E).
  - apply IH. intros kv Hkv. apply H. right. exact Hkv.
Qed.

(** X8: a first entry whose [ID] is falsy (missing, [null], [0], [""],
    [false], an empty list or object) only gets the "missing an ID"
    warning, whatever the library holds, even a record with that ID. *)
Theorem X8_falsy_id_is_missing :
  forall d rest brief_library,
    truthy (dict_get d "ID" PNone) = false ->
    display_matches (PList (PDict d :: rest)) brief_library
    = ([display_header; EvWarning msg_missing_id], None).
Proof. intros d rest lib T. unfold display_matches. simpl. rewrite T. reflexivity. Qed.

Lemma X8_witness :
  display_matches (PList [PDict [("ID", PInt 0); ("scaled_reason", PStr "x")]])
    [[("ID", PInt 0); ("Generic_Campaign_Concept", PStr "Zero")]]
  = ([display_header; EvWarning msg_missing_id], None).
Proof. apply X8_falsy_id_is_missing. reflexivity. Defined.



(** The record shown is the first of the library whose [str(ID)] equals
    that of the first entry's [ID]. *)
Lemma display_first_record :
  forall (d : list (string * pyval)) (rest : list pyval) (l1 : list record) (b : record)
         (l2 : list record),
    truthy (dict_get d "ID" PNone) = true ->
    (forall b', In b' l1 -> py_str (dict_get b' "ID" PNone) <> py_str (dict_get d "ID" PNone)) ->
    py_str (dict_get b "ID" PNone) = py_str (dict_get d "ID" PNone) ->
    b <> [] ->
    display_matches (PList (PDict d :: rest)) (l1 ++ b :: l2)%list
    = (display_header :: show_brief b (dict_get d "scaled_reason" (PStr "No reason provided.")),
       None).
Proof.
  intros d rest l1 b l2 T H1 Hb Nb.
  pose proof (find_brief_first l1 l2 b _ H1 Hb) as F.
  unfold display_matches. cbn [truthy subscript0]. rewrite T. cbn [negb]. rewrite F.
  destruct b as [|kv b']; [contradiction | reflexivity].
Qed.



(** X11: [b.get('ID')] is [None] for a row without an [ID] column, and
    [str(None)] is ["None"]: an entry with the ID text ["None"] is matched
    to such a row. *)
Theorem X11_none_text_matches_idless_row :
  forall (b : record) (reason : pyval) (l2 : list record),
    b <> [] -> (forall kv, In kv b -> fst kv <> "ID") ->
    display_matches (PList [PDict [("ID", PStr "None"); ("scaled_reason", reason)]]) (b :: l2)
    = (display_header :: show_brief b reason, None).
Proof.
  intros b reason l2 Nb H.
  change (b :: l2) with ([] ++ b :: l2)%list.
  refine (display_first_record [("ID", PStr "None"); ("scaled_reason", reason)] []
            [] b l2 eq_refl _ _ Nb); [intros b' [] |].
  rewrite (dict_get_absent b "ID" PNone H). reflexivity.
Qed.

Lemma X11_witness :
  display_matches (PList [PDict [("ID", PStr "None"); ("scaled_reason", PStr "r")]])
    [[("Generic_Campaign_Concept", PStr "Untitled row")]]
  = (display_header :: show_brief [("Generic_Campaign_Concept", PStr "Untitled row")] (PStr "r"),
     None).
Proof.
  apply X11_none_text_matches_idless_row.
  - discriminate.
  - intros kv [<-|[]]. discriminate.
Defined.

(** ** The projection sent to the model *)

(** The default [b.get] uses for a projected column. *)
Definition projection_default (k : string) : pyval :=
  if String.eqb k "Minimum_Viable_Budget" then PInt 0 else PStr "".

(** X12: a projected entry has, for each of its nine columns, the row's
    value (or [""], and [0] for [Minimum_Viable_Budget], when the row has
    no such column), and no other column of the row: a column outside
    [simplified_keys] is never sent to the model. *)
Theorem X12_projection_columns :
  forall (b : record) (k : string) (default : pyval),
    (In k simplified_keys ->
     dict_get (simplify_brief b) k default = dict_get b k (projection_default k))
    /\
    (~ In k simplified_keys -> dict_get (simplify_brief b) k default = default).
Proof.
  intros b k default. split.
  - intros Hk. unfold simplified_keys in Hk.
    repeat (destruct Hk as [<-|Hk]; [reflexivity|]). destruct Hk.
  - intros Hk. apply dict_get_absent. intros kv Hkv E. apply Hk.
    unfold simplify_brief in Hkv. unfold simplified_keys.
    repeat (destruct Hkv as [<-|Hkv]; [simpl in E; subst k; simpl; tauto|]).
    destruct Hkv.
Qed.

Lemma X12_witness :
  dict_get (simplify_brief case_study_row) "Generic_Campaign_Concept" PNone = PStr "Night run" /\
  dict_get (simplify_brief case_study_row) "kind" PNone = PNone.
Proof.
  split.
  - apply (proj1 (X12_projection_columns case_study_row "Generic_Campaign_Concept" PNone)).
    simpl. tauto.
  - apply (proj2 (X12_projection_columns case_study_row "kind" PNone)).
    simpl. intros H. repeat (destruct H as [H|H]; [discriminate|]). exact H.
Defined.

(** ** The budget label *)

(** X13: for the slider's values [1000 * k] ([1 <= k < 300]) the label is
    ["€<k>k"], and at the maximum 300000 it is ["€300k+"]. *)
Theorem X13_budget_label :
  (forall k, (1 <= k < 300)%Z -> budget_label (1000 * k) = euro ++ z_str k ++ "k")
  /\ budget_label 300000 = euro ++ "300k+".
Proof.
  split; [|reflexivity].
  intros k Hk. unfold budget_label.
  replace (Z.quot (1000 * k) 1000) with k.
  - destruct (Z.eqb_spec (1000 * k) 300000); [lia|reflexivity].
  - rewrite Z.mul_comm. rewrite Z.quot_mul; [reflexivity | discriminate].
Qed.

Lemma X13_witness : budget_label 50000 = euro ++ "50k".
Proof. apply (proj1 X13_budget_label 50%Z). lia. Defined.
